(** * SimTradeLab: project path management ([simtradelab/utils/paths.py])

    A shallow embedding of the path utility and the properties of its
    root-locating heuristics.

    Modelling choices.
    - A [Path] is an absolute, normalised POSIX path: the list of its
      components below the root.  [Path.cwd()] and [Path(__file__).resolve()]
      only produce such paths, and the program only joins plain names to them.
    - The file system is a finite tree of directories and regular files, the
      tree that [stat] sees once links are followed.  [Path.is_dir] and
      [Path.exists] answer [False] on a missing path and on a path that runs
      through a regular file.  Every path may be examined: there are no
      permissions in the model.
    - The process has a working directory that the system can name, and the
      module has a resolved location; neither has to exist in the tree.
      This is the reading in which the system answers every probe; the
      module [Fallible] embeds the same program over a system that may
      refuse (no search permission, a name or path beyond the limits, a
      working directory that was removed), and the two are shown to agree
      where it does not.
    - A Python [str] is a [string] whose characters are read as the code
      points 0..255.
    - The program runs in a state-and-exception monad.  The state holds the
      world (file system, working directory, resolved location of the module)
      and the chronological list of the probes made so far. *)

From Stdlib Require Import String Ascii List Bool Arith Lia.
Import ListNotations.
Open Scope string_scope.
Open Scope list_scope.

(** * Part I: the embedding *)

(** ** Paths (pathlib) *)

Abbreviation Path := (list string).

(** [path / name] for a plain component [name]. *)
Definition joinpath (p : Path) (name : string) : Path := p ++ [name].

Declare Scope path_scope.
Delimit Scope path_scope with path.
Notation "p / s" := (joinpath p s) : path_scope.
Open Scope path_scope.

(** [path.parent]: the path without its last component; the root is its own
    parent. *)
Definition parent (p : Path) : Path := firstn (length p - 1) p.

(** [path.parents]: element [i] keeps all but the last [i + 1] components, so
    the sequence runs from the containing directory up to the root and is
    empty for the root. *)
Definition parents (p : Path) : list Path :=
  map (fun i => firstn (length p - 1 - i) p) (seq 0 (length p)).

(** ** The file system *)

#[local] Unset Elimination Schemes.
Inductive node : Type :=
| File : node
| Dir : list (string * node) -> node.
#[local] Set Elimination Schemes.

Definition entries : Type := list (string * node).

Fixpoint entry (name : string) (es : entries) : option node :=
  match es with
  | [] => None
  | (n, c) :: rest => if String.eqb name n then Some c else entry name rest
  end.

(** What [stat] finds when it follows [p] from node [n]. *)
Fixpoint stat (n : node) (p : Path) : option node :=
  match p with
  | [] => Some n
  | name :: rest =>
      match n with
      | File => None
      | Dir es =>
          match entry name es with
          | None => None
          | Some c => stat c rest
          end
      end
  end.

Record World : Type := mkWorld {
  fs : entries;            (* content of the root directory *)
  work_dir : Path;         (* the process working directory *)
  module_file : Path       (* Path(__file__).resolve() *)
}.

Definition lookup (w : World) (p : Path) : option node := stat (Dir (fs w)) p.

Definition is_dir_at (w : World) (p : Path) : bool :=
  match lookup w p with
  | Some (Dir _) => true
  | _ => false
  end.

Definition exists_at (w : World) (p : Path) : bool :=
  match lookup w p with
  | Some _ => true
  | None => false
  end.

Definition is_file_at (w : World) (p : Path) : bool :=
  match lookup w p with
  | Some File => true
  | _ => false
  end.

(** ** The monad: state, probe log and exceptions *)

Inductive probe : Type :=
| ProbeCwd : probe
| ProbeResolve : probe
| ProbeIsDir : Path -> probe
| ProbeExists : Path -> probe.

Record State : Type := mkState {
  world : World;
  probes : list probe
}.

Inductive exn : Type :=
| AttributeError : string -> exn.

Inductive result (A : Type) : Type :=
| Ok : A -> result A
| Raise : exn -> result A.
Arguments Ok {A} _.
Arguments Raise {A} _.

Definition M (A : Type) : Type := State -> result A * State.

Definition ret {A} (a : A) : M A := fun st => (Ok a, st).

Definition bind {A B} (m : M A) (f : A -> M B) : M B :=
  fun st =>
    match m st with
    | (Ok a, st') => f a st'
    | (Raise e, st') => (Raise e, st')
    end.

Definition raise {A} (e : exn) : M A := fun st => (Raise e, st).

Notation "x <- m ;; k" := (bind m (fun x => k))
  (at level 61, m at next level, right associativity).

(** [log evs st]: the state after the probes [evs] were made from [st]. *)
Definition log (evs : list probe) (st : State) : State :=
  mkState (world st) (probes st ++ evs).

Definition probing {A} (ev : probe) (answer : World -> A) : M A :=
  fun st => (Ok (answer (world st)), log [ev] st).

(** The four questions to the system, in the reading in which the system
    answers each of them; [Fallible] has them with their errors. *)
Definition Path_cwd : M Path := probing ProbeCwd work_dir.
Definition Path_resolve_file : M Path := probing ProbeResolve module_file.
Definition Path_is_dir (p : Path) : M bool := probing (ProbeIsDir p) (fun w => is_dir_at w p).
Definition Path_exists (p : Path) : M bool := probing (ProbeExists p) (fun w => exists_at w p).

(** ** The program *)

Definition _is_project_dir (path : Path) : M bool :=
  let data_dir := path / "data" in
  d <- Path_is_dir data_dir ;;
  if negb d then ret false
  else
    m <- Path_exists (data_dir / "manifest.json") ;;
    if m then ret true else Path_is_dir (path / "strategies").

(** [for c in candidates: if test(c): return c], with [None] when the loop
    runs to its end. *)
Fixpoint first_passing (test : Path -> M bool) (candidates : list Path)
  : M (option Path) :=
  match candidates with
  | [] => ret None
  | c :: rest =>
      b <- test c ;;
      if b then ret (Some c) else first_passing test rest
  end.

Definition has_pyproject (p : Path) : M bool := Path_exists (p / "pyproject.toml").

Definition get_project_root : M Path :=
  cwd <- Path_cwd ;;
  r1 <- first_passing _is_project_dir [cwd; parent cwd] ;;
  match r1 with
  | Some candidate => ret candidate
  | None =>
      current <- Path_resolve_file ;;
      r2 <- first_passing _is_project_dir (current :: parents current) ;;
      match r2 with
      | Some p => ret p
      | None =>
          r3 <- first_passing has_pyproject (current :: parents current) ;;
          match r3 with
          | Some p => ret p
          | None => ret (parent (parent (parent current)))
          end
      end
  end.

Definition get_data_path : M Path :=
  root <- get_project_root ;; ret (root / "data").

Definition get_strategies_path : M Path :=
  root <- get_project_root ;; ret (root / "strategies").

(** [repr] of a [str], as the f-string conversion [!r] computes it: single
    quotes unless the text has a single quote and no double quote; the quote
    in use and the backslash are escaped, tab, newline and carriage return
    get their letter, and any other non-printable character becomes [\xhh]. *)

Definition squote : ascii := "'"%char.
Definition dquote : ascii := "034"%char.
Definition backslash : ascii := "\"%char.

Fixpoint has_char (c : ascii) (s : string) : bool :=
  match s with
  | EmptyString => false
  | String d rest => Ascii.eqb c d || has_char c rest
  end.

Definition hexdigit (n : nat) : ascii :=
  nth n (list_ascii_of_string "0123456789abcdef") "0"%char.

Definition hex_escape (c : ascii) : string :=
  let n := nat_of_ascii c in
  String backslash (String "x" (String (hexdigit (n / 16)%nat) (String (hexdigit (n mod 16)%nat) EmptyString))).

(** Printable code points above ASCII, up to U+00FF: all from U+00A1 on but
    the soft hyphen U+00AD. *)
Definition latin1_printable (n : nat) : bool :=
  ((161 <=? n) && negb (n =? 173))%nat.

Definition repr_char (quote c : ascii) : string :=
  let n := nat_of_ascii c in
  if Ascii.eqb c quote || Ascii.eqb c backslash then String backslash (String c EmptyString)
  else if (n =? 9)%nat then String backslash "t"
  else if (n =? 10)%nat then String backslash "n"
  else if (n =? 13)%nat then String backslash "r"
  else if ((n <? 32) || (n =? 127))%nat then hex_escape c
  else if (n <? 127)%nat then String c EmptyString
  else if latin1_printable n then String c EmptyString
  else hex_escape c.

Fixpoint repr_chars (quote : ascii) (s : string) : string :=
  match s with
  | EmptyString => EmptyString
  | String c rest => repr_char quote c ++ repr_chars quote rest
  end.

Definition repr_quote (s : string) : ascii :=
  if has_char squote s && negb (has_char dquote s) then dquote else squote.

Definition repr (s : string) : string :=
  let quote := repr_quote s in
  String quote (repr_chars quote s ++ String quote EmptyString).

Definition __getattr__ (name : string) : M Path :=
  if name =? "PROJECT_ROOT" then get_project_root
  else if name =? "DATA_PATH" then get_data_path
  else if name =? "STRATEGIES_PATH" then get_strategies_path
  else if name =? "ADJ_PRE_CACHE_PATH" then
    d <- get_data_path ;; ret (d / "ptrade_adj_pre.parquet")
  else if name =? "ADJ_POST_CACHE_PATH" then
    d <- get_data_path ;; ret (d / "ptrade_adj_post.parquet")
  else raise (AttributeError ("module 'paths' has no attribute " ++ repr name)).

(** ** Vocabulary of the statements *)

Fixpoint starts_with (pre s : string) : bool :=
  match pre, s with
  | EmptyString, _ => true
  | String a pre', String b s' => Ascii.eqb a b && starts_with pre' s'
  | String _ _, EmptyString => false
  end.

Fixpoint contains (needle hay : string) : bool :=
  starts_with needle hay ||
  match hay with
  | EmptyString => false
  | String _ rest => contains needle rest
  end.

(** The run of [m] from [st] ends normally with value [v]. *)
Definition returns {A} (m : M A) (st : State) (v : A) : Prop :=
  fst (m st) = Ok v.

(** The run of [m] from [st] ends normally with value [v], leaves the world
    as it was, and only makes probes that satisfy [Q]. *)
Definition reads {A} (Q : probe -> Prop) (m : M A) (st : State) (v : A) : Prop :=
  exists evs, m st = (Ok v, log evs st) /\ Forall Q evs.

(** A probe of some [pyproject.toml]. *)
Definition consults_pyproject (ev : probe) : bool :=
  match ev with
  | ProbeExists p => String.eqb (last p EmptyString) "pyproject.toml"
  | _ => false
  end.

Definition quiet (ev : probe) : Prop := consults_pyproject ev = false.

Definition any_probe (ev : probe) : Prop := True.

(** The project marker: [data] is a directory and holds [manifest.json], or
    sits next to a [strategies] directory. *)
Definition project_dir (w : World) (p : Path) : bool :=
  is_dir_at w (p / "data") &&
  (exists_at w (p / "data" / "manifest.json") || is_dir_at w (p / "strategies")).

Definition pyproject_at (w : World) (p : Path) : bool :=
  exists_at w (p / "pyproject.toml").

(** The candidates of the upward walk: the module's file, then its ancestors. *)
Definition walk (w : World) : list Path :=
  module_file w :: parents (module_file w).

Definition near_cwd (w : World) : list Path :=
  [work_dir w; parent (work_dir w)].

Definition fallback_root (w : World) : Path :=
  parent (parent (parent (module_file w))).

Definition located_root (w : World) : Path :=
  match find (project_dir w) (near_cwd w) with
  | Some c => c
  | None =>
      match find (project_dir w) (walk w) with
      | Some p => p
      | None =>
          match find (pyproject_at w) (walk w) with
          | Some p => p
          | None => fallback_root w
          end
      end
  end.

Definition recognized (name : string) : bool :=
  existsb (String.eqb name)
    ["PROJECT_ROOT"; "DATA_PATH"; "STRATEGIES_PATH";
     "ADJ_PRE_CACHE_PATH"; "ADJ_POST_CACHE_PATH"].

Definition printable (c : ascii) : bool :=
  let n := nat_of_ascii c in
  ((32 <=? n) && (n <? 127))%nat || latin1_printable n.

Fixpoint all_chars (f : ascii -> bool) (s : string) : bool :=
  match s with
  | EmptyString => true
  | String c rest => f c && all_chars f rest
  end.

(** The names [repr] only wraps in quotes: every character is printable and
    is neither the backslash nor the quote [repr] picks for the name. *)
Definition copied_verbatim (name : string) : bool :=
  all_chars (fun c => printable c && negb (Ascii.eqb c backslash)
                      && negb (Ascii.eqb c (repr_quote name))) name.

(** [m] only reads: a run leaves the world as it found it, its outcome is
    the same from any two states that hold the same world, and so a second
    run right after the first repeats its outcome. *)
Definition reads_only {A} (m : M A) : Prop :=
  forall st,
    world (snd (m st)) = world st /\
    (forall st', world st' = world st -> fst (m st') = fst (m st)) /\
    fst (m (snd (m st))) = fst (m st).

(** The search as the description words it: both upward walks start at the
    directory that contains the module's file. *)
Definition get_project_root_from_dir : M Path :=
  cwd <- Path_cwd ;;
  r1 <- first_passing _is_project_dir [cwd; parent cwd] ;;
  match r1 with
  | Some candidate => ret candidate
  | None =>
      current <- Path_resolve_file ;;
      r2 <- first_passing _is_project_dir (parents current) ;;
      match r2 with
      | Some p => ret p
      | None =>
          r3 <- first_passing has_pyproject (parents current) ;;
          match r3 with
          | Some p => ret p
          | None => ret (parent (parent (parent current)))
          end
      end
  end.

Definition located_root_from_dir (w : World) : Path :=
  match find (project_dir w) (near_cwd w) with
  | Some c => c
  | None =>
      match find (project_dir w) (parents (module_file w)) with
      | Some p => p
      | None =>
          match find (pyproject_at w) (parents (module_file w)) with
          | Some p => p
          | None => fallback_root w
          end
      end
  end.

(** ** Concrete worlds *)

Definition newline_name : string := String "010" EmptyString.

Definition empty_state : State := mkState (mkWorld [] [] []) [].

(** The source tree without [data], [strategies] or [pyproject.toml]; the
    process runs in [/tmp]. *)
Definition bare_checkout : World :=
  mkWorld
    [("proj", Dir [("src", Dir [("simtradelab", Dir [("utils",
        Dir [("paths.py", File)])])])]);
     ("tmp", Dir [])]
    ["tmp"]
    ["proj"; "src"; "simtradelab"; "utils"; "paths.py"].

(** A marker at [/repo], a [pyproject.toml] nearer to the module at
    [/repo/pkg] and another at the root; the process runs in [/tmp/job]. *)
Definition nested_package : World :=
  mkWorld
    [("pyproject.toml", File);
     ("repo", Dir [("data", Dir [("manifest.json", File)]);
                   ("pkg", Dir [("pyproject.toml", File);
                                ("src", Dir [("simtradelab", Dir [("utils",
                                   Dir [("paths.py", File)])])])])]);
     ("tmp", Dir [("job", Dir [])])]
    ["tmp"; "job"]
    ["repo"; "pkg"; "src"; "simtradelab"; "utils"; "paths.py"].

(** A project with [data] and [strategies]; the process runs in its
    [notebooks] directory. *)
Definition notebook_session : World :=
  mkWorld
    [("proj", Dir [("data", Dir []); ("strategies", Dir []);
                   ("notebooks", Dir [])])]
    ["proj"; "notebooks"]
    ["proj"; "src"; "simtradelab"; "utils"; "paths.py"].

(** Three directories at the root: [/a] has [data] and [strategies] and
    holds the module, [/b] has [data/manifest.json], [/c] has [data] alone;
    the process runs in [dir]. *)
Definition three_dirs (dir : Path) : World :=
  mkWorld
    [("a", Dir [("data", Dir []); ("strategies", Dir []);
                ("src", Dir [("simtradelab", Dir [("utils",
                   Dir [("paths.py", File)])])])]);
     ("b", Dir [("data", Dir [("manifest.json", File)])]);
     ("c", Dir [("data", Dir [])]);
     ("tmp", Dir [])]
    dir
    ["a"; "src"; "simtradelab"; "utils"; "paths.py"].

Definition fresh (w : World) : State := mkState w [].

(** ** Vocabulary of the further properties *)

(** The probes one run of [_is_project_dir] makes, in order. *)
Definition marker_probes (w : World) (p : Path) : list probe :=
  ProbeIsDir (p / "data") ::
  (if is_dir_at w (p / "data") then
     ProbeExists (p / "data" / "manifest.json") ::
     (if exists_at w (p / "data" / "manifest.json") then []
      else [ProbeIsDir (p / "strategies")])
   else []).

(** The four places the program may look at below a candidate. *)
Definition candidate_probes (c : Path) : list probe :=
  [ProbeIsDir (c / "data"); ProbeExists (c / "data" / "manifest.json");
   ProbeIsDir (c / "strategies"); ProbeExists (c / "pyproject.toml")].

Definition allowed_probes (w : World) : list probe :=
  ProbeCwd :: ProbeResolve :: flat_map candidate_probes (near_cwd w ++ walk w).

(** [r] is the path [p] or one of its ancestors. *)
Definition above (r p : Path) : Prop := exists rest, p = r ++ rest.

(** Reading one character of a [repr] back. *)
Definition unhex (c : ascii) : option nat :=
  let n := nat_of_ascii c in
  if ((48 <=? n) && (n <=? 57))%nat then Some (n - 48)
  else if ((97 <=? n) && (n <=? 102))%nat then Some (n - 87)
  else None.

Definition decode_char (quote : ascii) (s : string) : option (ascii * string) :=
  match s with
  | EmptyString => None
  | String c rest =>
      if Ascii.eqb c backslash then
        match rest with
        | EmptyString => None
        | String e rest' =>
            if Ascii.eqb e "t" then Some ("009"%char, rest')
            else if Ascii.eqb e "n" then Some ("010"%char, rest')
            else if Ascii.eqb e "r" then Some ("013"%char, rest')
            else if Ascii.eqb e "x" then
              match rest' with
              | String h1 (String h2 rest'') =>
                  match unhex h1, unhex h2 with
                  | Some a, Some b => Some (ascii_of_nat (16 * a + b), rest'')
                  | _, _ => None
                  end
              | _ => None
              end
            else Some (e, rest')
        end
      else if Ascii.eqb c quote then None
      else Some (c, rest)
  end.

(** A package with [pyproject.toml] at [/repo/pkg] and at the root, and no
    project marker anywhere; the process runs in [/tmp]. *)
Definition unmarked_package : World :=
  mkWorld
    [("pyproject.toml", File);
     ("repo", Dir [("pkg", Dir [("pyproject.toml", File);
                                ("src", Dir [("simtradelab", Dir [("utils",
                                   Dir [("paths.py", File)])])])])]);
     ("tmp", Dir [])]
    ["tmp"]
    ["repo"; "pkg"; "src"; "simtradelab"; "utils"; "paths.py"].

(** A project at [/b] with a directory [/b/x/y] below it, and the module
    installed apart from it under [/opt/lib]; the process runs in [dir]. *)
Definition installed_apart (dir : Path) : World :=
  mkWorld
    [("b", Dir [("data", Dir [("manifest.json", File)]);
                ("x", Dir [("y", Dir [])])]);
     ("opt", Dir [("lib", Dir [("simtradelab", Dir [("utils",
        Dir [("paths.py", File)])])])])]
    dir
    ["opt"; "lib"; "simtradelab"; "utils"; "paths.py"].

(** ** The program over a system that may refuse *)

Module Fallible.

(** A directory carries the right of the process to search it. *)
#[local] Unset Elimination Schemes.
Inductive fnode : Type :=
| FFile : fnode
| FDir : bool -> list (string * fnode) -> fnode.
#[local] Set Elimination Schemes.

Inductive errno : Type := ENOENT | ENOTDIR | EACCES | ENAMETOOLONG.

Inductive answer (A : Type) : Type :=
| Found : A -> answer A
| Errno : errno -> answer A.
Arguments Found {A} _.
Arguments Errno {A} _.

Definition NAME_MAX : nat := 255.
Definition PATH_MAX : nat := 4096.

(** Lengths in bytes of the encoded text: one byte below U+0080, two up to
    U+00FF. *)
Definition char_bytes (c : ascii) : nat :=
  if (nat_of_ascii c <? 128)%nat then 1 else 2.

Fixpoint name_bytes (s : string) : nat :=
  match s with
  | EmptyString => 0
  | String c rest => char_bytes c + name_bytes rest
  end.

(** The bytes of [/c1/.../cn]. *)
Definition path_bytes (p : Path) : nat :=
  list_sum (map (fun s => S (name_bytes s)) p).

Fixpoint fentry (name : string) (es : list (string * fnode)) : option fnode :=
  match es with
  | [] => None
  | (n, c) :: rest => if String.eqb name n then Some c else fentry name rest
  end.

(** The walk of [stat] from node [n]: a step into a directory needs the
    right to search it and a name within [NAME_MAX]. *)
Fixpoint walk_stat (n : fnode) (p : Path) : answer fnode :=
  match p with
  | [] => Found n
  | name :: rest =>
      match n with
      | FFile => Errno ENOTDIR
      | FDir searchable es =>
          if negb searchable then Errno EACCES
          else if (NAME_MAX <? name_bytes name)%nat then Errno ENAMETOOLONG
          else
            match fentry name es with
            | None => Errno ENOENT
            | Some c => walk_stat c rest
            end
      end
  end.

Record FWorld : Type := mkFWorld {
  ffs : list (string * fnode);   (* content of the root directory *)
  fcwd : option Path;            (* the working directory, unless removed *)
  ffile : Path                   (* Path(__file__).resolve() *)
}.

(** [os.stat]: the text of the path has to fit in [PATH_MAX] with its
    terminator; the root can be searched. *)
Definition os_stat (w : FWorld) (p : Path) : answer fnode :=
  if (PATH_MAX <=? path_bytes p)%nat then Errno ENAMETOOLONG
  else walk_stat (FDir true (ffs w)) p.

(** [OSError] with its [errno]: [PermissionError] is [OSError EACCES],
    [FileNotFoundError] is [OSError ENOENT]. *)
Inductive oserror : Type :=
| OSError : errno -> oserror.

Inductive outcome (A : Type) : Type :=
| Returned : A -> outcome A
| Raised : oserror -> outcome A.
Arguments Returned {A} _.
Arguments Raised {A} _.

Definition F (A : Type) : Type := FWorld -> outcome A.

Definition ret {A} (a : A) : F A := fun _ => Returned a.

Definition bind {A B} (m : F A) (f : A -> F B) : F B :=
  fun w =>
    match m w with
    | Returned a => f a w
    | Raised e => Raised e
    end.

Declare Scope fallible_scope.
Notation "x <- m ;; k" := (bind m (fun x => k))
  (at level 61, m at next level, right associativity) : fallible_scope.
#[local] Open Scope fallible_scope.

(** [Path.cwd()] is [os.getcwd()]. *)
Definition Path_cwd : F Path :=
  fun w =>
    match fcwd w with
    | Some d => Returned d
    | None => Raised (OSError ENOENT)
    end.

Definition Path_resolve_file : F Path := fun w => Returned (ffile w).

(** [Path.is_dir()] and [Path.exists()]: [ENOENT] and [ENOTDIR] mean no,
    any other error of [stat] is raised again. *)
Definition Path_is_dir (p : Path) : F bool :=
  fun w =>
    match os_stat w p with
    | Found (FDir _ _) => Returned true
    | Found FFile => Returned false
    | Errno ENOENT => Returned false
    | Errno ENOTDIR => Returned false
    | Errno e => Raised (OSError e)
    end.

Definition Path_exists (p : Path) : F bool :=
  fun w =>
    match os_stat w p with
    | Found _ => Returned true
    | Errno ENOENT => Returned false
    | Errno ENOTDIR => Returned false
    | Errno e => Raised (OSError e)
    end.

Definition _is_project_dir (path : Path) : F bool :=
  let data_dir := path / "data" in
  d <- Path_is_dir data_dir ;;
  if negb d then ret false
  else
    m <- Path_exists (data_dir / "manifest.json") ;;
    if m then ret true else Path_is_dir (path / "strategies").

Fixpoint first_passing (test : Path -> F bool) (candidates : list Path)
  : F (option Path) :=
  match candidates with
  | [] => ret None
  | c :: rest =>
      b <- test c ;;
      if b then ret (Some c) else first_passing test rest
  end.

Definition has_pyproject (p : Path) : F bool := Path_exists (p / "pyproject.toml").

Definition get_project_root : F Path :=
  cwd <- Path_cwd ;;
  r1 <- first_passing _is_project_dir [cwd; parent cwd] ;;
  match r1 with
  | Some candidate => ret candidate
  | None =>
      current <- Path_resolve_file ;;
      r2 <- first_passing _is_project_dir (current :: parents current) ;;
      match r2 with
      | Some p => ret p
      | None =>
          r3 <- first_passing has_pyproject (current :: parents current) ;;
          match r3 with
          | Some p => ret p
          | None => ret (parent (parent (parent current)))
          end
      end
  end.













End Fallible.

(** * Part II: the properties *)

(** ** Facts about paths *)

Lemma parent_join (p : Path) (s : string) : parent (p / s) = p.
Proof.
  unfold parent, joinpath.
  rewrite length_app; simpl.
  replace (length p + 1 - 1) with (length p) by lia.
  rewrite firstn_app, firstn_all, Nat.sub_diag; simpl.
  apply app_nil_r.
Qed.

Lemma parents_join (p : Path) (s : string) : parents (p / s) = p :: parents p.
Proof.
  unfold parents, joinpath.
  rewrite length_app; cbn [length].
  replace (length p + 1) with (S (length p)) by lia.
  cbn [seq map].
  f_equal.
  - replace (S (length p) - 1 - 0) with (length p) by lia.
    rewrite firstn_app, firstn_all, Nat.sub_diag; simpl. apply app_nil_r.
  - rewrite <- seq_shift, map_map.
    apply map_ext_in; intros i Hi.
    apply in_seq in Hi.
    rewrite firstn_app.
    replace (S (length p) - 1 - S i - length p) with 0 by lia.
    simpl. rewrite app_nil_r. f_equal. lia.
Qed.

Lemma path_last (p : Path) : p <> [] -> exists q s, p = q / s.
Proof.
  intros H. destruct (exists_last H) as [q [s E]]. exists q, s. exact E.
Qed.

Lemma parents_unfold (p : Path) :
  p <> [] -> parents p = parent p :: parents (parent p).
Proof.
  intros H. destruct (path_last p H) as [q [s ->]].
  now rewrite parents_join, parent_join.
Qed.

Lemma parent_root : parent [] = [].
Proof. reflexivity. Qed.

Lemma parents_root : parents [] = [].
Proof. reflexivity. Qed.

(** ** Facts about the file system *)

Lemma stat_join (n : node) (p : Path) (s : string) :
  stat n (p / s) =
  match stat n p with
  | Some (Dir es) => entry s es
  | _ => None
  end.
Proof.
  unfold joinpath. revert n.
  induction p as [|a p IH]; intros n; simpl.
  - destruct n as [|es]; [reflexivity|].
    destruct (entry s es); reflexivity.
  - destruct n as [|es]; [reflexivity|].
    destruct (entry a es) as [c|]; [apply IH | reflexivity].
Qed.

Lemma lookup_join (w : World) (p : Path) (s : string) :
  lookup w (p / s) =
  match lookup w p with
  | Some (Dir es) => entry s es
  | _ => None
  end.
Proof. apply stat_join. Qed.

(** Nothing exists below a path that is not a directory. *)
Lemma exists_below_dir (w : World) (p : Path) (s : string) :
  is_dir_at w p = false -> exists_at w (p / s) = false.
Proof.
  unfold is_dir_at, exists_at. rewrite lookup_join.
  destruct (lookup w p) as [[|es]|]; intros H; try reflexivity; discriminate.
Qed.

Lemma is_dir_exists (w : World) (p : Path) :
  is_dir_at w p = true -> exists_at w p = true.
Proof.
  unfold is_dir_at, exists_at. destruct (lookup w p) as [[|es]|]; congruence.
Qed.

Lemma is_file_not_dir (w : World) (p : Path) :
  is_file_at w p = true -> is_dir_at w p = false.
Proof.
  unfold is_file_at, is_dir_at. destruct (lookup w p) as [[|es]|]; congruence.
Qed.

(** ** Facts about text search *)

Lemma starts_with_spec (pre s : string) :
  starts_with pre s = true <-> exists t, s = (pre ++ t)%string.
Proof.
  revert s. induction pre as [|a pre IH]; intros s; simpl.
  - split; [intros _; exists s; reflexivity | reflexivity].
  - destruct s as [|b s].
    + split; [discriminate | intros [t E]; discriminate].
    + rewrite andb_true_iff, Ascii.eqb_eq, IH. split.
      * intros [-> [t ->]]. exists t. reflexivity.
      * intros [t E]. injection E as -> ->. split; [reflexivity | exists t; reflexivity].
Qed.

Lemma contains_spec (needle hay : string) :
  contains needle hay = true <-> exists a b, hay = (a ++ needle ++ b)%string.
Proof.
  induction hay as [|c hay IH]; simpl.
  - rewrite orb_false_r, starts_with_spec. split.
    + intros [t E]. exists EmptyString, t. exact E.
    + intros [a [b E]]. destruct a; simpl in E; [exists b; exact E | discriminate].
  - rewrite orb_true_iff, starts_with_spec, IH. split.
    + intros [[t E] | [a [b E]]].
      * exists EmptyString, t. exact E.
      * exists (String c a), b. simpl. now rewrite E.
    + intros [a [b E]]. destruct a as [|d a]; simpl in E.
      * left. exists b. exact E.
      * right. injection E as _ E. exists a, b. exact E.
Qed.

Lemma append_assoc (a b c : string) : ((a ++ b) ++ c = a ++ (b ++ c))%string.
Proof. induction a as [|x a IH]; simpl; [reflexivity | now rewrite IH]. Qed.

Lemma contains_suffix (a b : string) : contains b (a ++ b) = true.
Proof.
  apply contains_spec. exists a, EmptyString.
  f_equal. induction b as [|x b IH]; simpl; [reflexivity | now rewrite <- IH].
Qed.

(** ** Reasoning about runs *)

Lemma log_nil (st : State) : log [] st = st.
Proof. destruct st as [w ps]. unfold log; simpl. now rewrite app_nil_r. Qed.

Lemma log_log (e1 e2 : list probe) (st : State) :
  log e2 (log e1 st) = log (e1 ++ e2) st.
Proof. unfold log; simpl. now rewrite app_assoc. Qed.

Lemma world_log (evs : list probe) (st : State) : world (log evs st) = world st.
Proof. reflexivity. Qed.

Lemma bind_ok {A B} (m : M A) (f : A -> M B) (st st' : State) (a : A) :
  m st = (Ok a, st') -> bind m f st = f a st'.
Proof. intros H. unfold bind. now rewrite H. Qed.

Section Runs.

Variable Q : probe -> Prop.

Lemma reads_ret {A} (a : A) (st : State) : reads Q (ret a) st a.
Proof. exists []. rewrite log_nil. split; [reflexivity | constructor]. Qed.

Lemma reads_probing {A} (ev : probe) (answer : World -> A) (st : State) :
  Q ev -> reads Q (probing ev answer) st (answer (world st)).
Proof. intros H. exists [ev]. split; [reflexivity | now constructor]. Qed.

Lemma reads_bind {A B} (m : M A) (f : A -> M B) (st : State) (a : A) (b : B) :
  reads Q m st a ->
  (forall evs, reads Q (f a) (log evs st) b) ->
  reads Q (bind m f) st b.
Proof.
  intros [e1 [E1 Q1]] H. destruct (H e1) as [e2 [E2 Q2]].
  exists (e1 ++ e2). split.
  - rewrite (bind_ok _ _ _ _ _ E1), E2, log_log. reflexivity.
  - apply Forall_app. now split.
Qed.

Lemma reads_weaken {A} (Q' : probe -> Prop) (m : M A) (st : State) (v : A) :
  (forall ev, Q ev -> Q' ev) -> reads Q m st v -> reads Q' m st v.
Proof.
  intros HQ [evs [E F]]. exists evs. split; [exact E|].
  eapply Forall_impl; [exact HQ | exact F].
Qed.

Lemma reads_returns {A} (m : M A) (st : State) (v : A) :
  reads Q m st v -> returns m st v.
Proof. intros [evs [E _]]. unfold returns. now rewrite E. Qed.

(** A loop over candidates finds what [find] finds with the test's answer. *)
Lemma first_passing_reads (test : Path -> M bool)
      (holds : World -> Path -> bool) (l : list Path) :
  (forall c st, reads Q (test c) st (holds (world st) c)) ->
  forall st, reads Q (first_passing test l) st (find (holds (world st)) l).
Proof.
  intros H. induction l as [|c l IH]; intros st; simpl.
  - apply reads_ret.
  - eapply reads_bind; [apply H|].
    intros evs. destruct (holds (world st) c); [apply reads_ret|].
    apply (IH (log evs st)).
Qed.

End Runs.

Lemma returns_inj {A} (m : M A) (st : State) (v v' : A) :
  returns m st v -> returns m st v' -> v = v'.
Proof. unfold returns. congruence. Qed.

Lemma quiet_dir (p : Path) : quiet (ProbeIsDir p).
Proof. reflexivity. Qed.

Lemma quiet_exists (p : Path) (s : string) :
  String.eqb s "pyproject.toml" = false -> quiet (ProbeExists (p / s)).
Proof. intros H. unfold quiet, joinpath; simpl. now rewrite last_last. Qed.

(** ** What each operation computes *)

Lemma is_project_dir_reads (p : Path) (st : State) :
  reads quiet (_is_project_dir p) st (project_dir (world st) p).
Proof.
  unfold _is_project_dir, project_dir.
  eapply reads_bind; [apply reads_probing, quiet_dir|].
  intros e1. cbn beta.
  destruct (is_dir_at (world st) (p / "data")); simpl; [|apply reads_ret].
  eapply reads_bind; [apply reads_probing, quiet_exists; reflexivity|].
  intros e2. cbn beta. rewrite ?world_log.
  destruct (exists_at (world st) (p / "data" / "manifest.json")); simpl;
    [apply reads_ret|].
  exact (reads_probing quiet _ (fun w => is_dir_at w (p / "strategies")) _ (quiet_dir _)).
Qed.

Lemma has_pyproject_reads (p : Path) (st : State) :
  reads any_probe (has_pyproject p) st (pyproject_at (world st) p).
Proof.
  exact (reads_probing any_probe _ (fun w => exists_at w (p / "pyproject.toml")) st I).
Qed.

Lemma find_split {A} (f : A -> bool) (l : list A) (r : A) :
  find f l = Some r ->
  exists before after,
    l = before ++ r :: after /\ f r = true /\
    forall x, In x before -> f x = false.
Proof.
  induction l as [|a l IH]; simpl; [discriminate|].
  destruct (f a) eqn:Fa.
  - intros [= ->]. exists [], l. repeat split; [exact Fa | intros x []].
  - intros H. destruct (IH H) as [before [after [-> [Fr Hb]]]].
    exists (a :: before), after. repeat split; [exact Fr|].
    intros x [<- | Hx]; [exact Fa | now apply Hb].
Qed.

(** The run of [get_project_root]: its value, its first probe, and when it
    stays clear of every [pyproject.toml]. *)
Lemma get_project_root_run (st : State) :
  exists evs,
    get_project_root st = (Ok (located_root (world st)), log evs st) /\
    hd_error evs = Some ProbeCwd /\
    (find (project_dir (world st)) (near_cwd (world st)) <> None \/
     find (project_dir (world st)) (walk (world st)) <> None ->
     Forall quiet evs).
Proof.
  unfold get_project_root, located_root, near_cwd, walk.
  assert (E1 : Path_cwd st = (Ok (work_dir (world st)), log [ProbeCwd] st))
    by reflexivity.
  assert (Q1 : Forall quiet [ProbeCwd]) by (repeat constructor).
  rewrite (bind_ok _ _ _ _ _ E1).
  destruct (first_passing_reads quiet _is_project_dir project_dir
              [work_dir (world st); parent (work_dir (world st))]
              is_project_dir_reads (log [ProbeCwd] st)) as [e2 [E2 Q2]].
  rewrite (bind_ok _ _ _ _ _ E2), log_log, world_log.
  destruct (find (project_dir (world st))
              [work_dir (world st); parent (work_dir (world st))]) as [c|] eqn:F1.
  { exists ([ProbeCwd] ++ e2). repeat split.
    intros _. apply Forall_app. now split. }
  destruct (reads_probing quiet ProbeResolve module_file (log ([ProbeCwd] ++ e2) st) eq_refl)
    as [e3 [E3 Q3]].
  rewrite (bind_ok _ _ _ _ _ E3), log_log, world_log.
  destruct (first_passing_reads quiet _is_project_dir project_dir
              (module_file (world st) :: parents (module_file (world st)))
              is_project_dir_reads (log (([ProbeCwd] ++ e2) ++ e3) st)) as [e4 [E4 Q4]].
  rewrite (bind_ok _ _ _ _ _ E4), log_log, world_log.
  destruct (find (project_dir (world st))
              (module_file (world st) :: parents (module_file (world st))))
    as [p|] eqn:F2.
  { exists ((([ProbeCwd] ++ e2) ++ e3) ++ e4). repeat split.
    intros _. repeat (apply Forall_app; split); assumption. }
  destruct (first_passing_reads any_probe has_pyproject pyproject_at
              (module_file (world st) :: parents (module_file (world st)))
              has_pyproject_reads (log ((([ProbeCwd] ++ e2) ++ e3) ++ e4) st)) as [e5 [E5 _]].
  rewrite (bind_ok _ _ _ _ _ E5), log_log, world_log.
  exists (((([ProbeCwd] ++ e2) ++ e3) ++ e4) ++ e5). repeat split.
  - destruct (find (pyproject_at (world st)) _); reflexivity.
  - intros [H | H]; congruence.
Qed.

Lemma get_project_root_reads (st : State) :
  reads any_probe get_project_root st (located_root (world st)).
Proof.
  destruct (get_project_root_run st) as [evs [E _]].
  exists evs. split; [exact E|].
  apply Forall_forall. intros ev _. exact I.
Qed.

Lemma returns_is_project_dir (p : Path) (st : State) (b : bool) :
  returns (_is_project_dir p) st b <-> project_dir (world st) p = b.
Proof.
  pose proof (reads_returns _ _ _ _ (is_project_dir_reads p st)) as H.
  split.
  - intros Hb. exact (returns_inj _ _ _ _ H Hb).
  - intros <-. exact H.
Qed.

Lemma returns_get_project_root (st : State) (r : Path) :
  returns get_project_root st r <-> located_root (world st) = r.
Proof.
  pose proof (reads_returns _ _ _ _ (get_project_root_reads st)) as H.
  split.
  - intros Hr. exact (returns_inj _ _ _ _ H Hr).
  - intros <-. exact H.
Qed.

(** The runs of the derived operations: each is one run of
    [get_project_root] followed by a join. *)
Lemma derived_paths_run (st : State) :
  exists evs,
    hd_error evs = Some ProbeCwd /\
    get_project_root st = (Ok (located_root (world st)), log evs st) /\
    get_data_path st = (Ok (located_root (world st) / "data"), log evs st) /\
    get_strategies_path st =
      (Ok (located_root (world st) / "strategies"), log evs st).
Proof.
  destruct (get_project_root_run st) as [evs [E [Hd _]]].
  exists evs. unfold get_data_path, get_strategies_path.
  rewrite !(bind_ok _ _ _ _ _ E). repeat split; assumption.
Qed.

Lemma getattr_recognized (st : State) (name : string) :
  recognized name = true ->
  exists v evs, __getattr__ name st = (Ok v, log evs st).
Proof.
  destruct (derived_paths_run st) as [evs [_ [R [D S]]]].
  unfold recognized, existsb. rewrite !orb_true_iff, !String.eqb_eq.
  intros [->|[->|[->|[->|[->|F]]]]]; try discriminate F;
    unfold __getattr__; simpl; rewrite ?(bind_ok _ _ _ _ _ D);
    do 2 eexists; first [exact R | exact D | exact S | reflexivity].
Qed.

(** ** The project marker *)

(** C2: [_is_project_dir path] answers true exactly when [path/data] is a
    directory and, besides, [path/data/manifest.json] exists or
    [path/strategies] is a directory; with [data] alone it answers false. *)
Theorem is_project_dir_iff (path : Path) (st : State) :
  exists b evs,
    _is_project_dir path st = (Ok b, log evs st) /\
    (b = true <->
     is_dir_at (world st) (path / "data") = true /\
     (exists_at (world st) (path / "data" / "manifest.json") = true \/
      is_dir_at (world st) (path / "strategies") = true)) /\
    (exists_at (world st) (path / "data" / "manifest.json") = false ->
     is_dir_at (world st) (path / "strategies") = false ->
     b = false).
Proof.
  destruct (is_project_dir_reads path st) as [evs [E _]].
  exists (project_dir (world st) path), evs. split; [exact E|].
  unfold project_dir. split.
  - now rewrite andb_true_iff, orb_true_iff.
  - intros -> ->. apply andb_false_r.
Qed.

Example project_marker_examples :
  returns (_is_project_dir ["b"]) (fresh (three_dirs ["tmp"])) true /\
  returns (_is_project_dir ["a"]) (fresh (three_dirs ["tmp"])) true /\
  returns (_is_project_dir ["c"]) (fresh (three_dirs ["tmp"])) false /\
  returns (_is_project_dir ["nowhere"]) (fresh (three_dirs ["tmp"])) false /\
  returns (_is_project_dir ["a"; "src"; "simtradelab"; "utils"; "paths.py"])
          (fresh (three_dirs ["tmp"])) false.
Proof. repeat split. Qed.

(** ** The strategies of [get_project_root] *)

(** C3: when the working directory carries the project marker it is the root
    returned; when it does not and its parent does, the parent is returned. *)
Theorem get_project_root_near_cwd (st : State) :
  let c := work_dir (world st) in
  (returns (_is_project_dir c) st true -> returns get_project_root st c) /\
  (returns (_is_project_dir c) st false ->
   returns (_is_project_dir (parent c)) st true ->
   returns get_project_root st (parent c)).
Proof.
  cbv zeta. rewrite !returns_is_project_dir, !returns_get_project_root.
  unfold located_root, near_cwd; simpl.
  split.
  - intros ->. reflexivity.
  - intros -> ->. reflexivity.
Qed.

Example root_is_cwd_example :
  returns (_is_project_dir ["repo"]) (fresh (mkWorld (fs nested_package) ["repo"] [])) true /\
  returns get_project_root (fresh (mkWorld (fs nested_package) ["repo"] [])) ["repo"].
Proof. split; reflexivity. Qed.

Example root_is_parent_of_cwd_example :
  returns (_is_project_dir ["proj"; "notebooks"]) (fresh notebook_session) false /\
  returns (_is_project_dir ["proj"]) (fresh notebook_session) true /\
  returns get_project_root (fresh notebook_session) ["proj"].
Proof. repeat split; reflexivity. Qed.

(** C1: when neither the working directory nor its parent carries the
    project marker and some candidate [a] of the upward walk does, the root
    returned is the first candidate of the walk that carries it: it sits at
    or before [a], it is [a] when no other candidate carries the marker, and
    the run makes no probe of any [pyproject.toml], wherever such files are. *)
Theorem get_project_root_marker_walk_first (st : State) (a : Path) :
  returns (_is_project_dir (work_dir (world st))) st false ->
  returns (_is_project_dir (parent (work_dir (world st)))) st false ->
  In a (walk (world st)) ->
  returns (_is_project_dir a) st true ->
  exists r evs before after,
    get_project_root st = (Ok r, log evs st) /\
    walk (world st) = before ++ r :: after /\
    returns (_is_project_dir r) st true /\
    (forall x, In x before -> returns (_is_project_dir x) st false) /\
    In a (r :: after) /\
    ((forall x, In x (walk (world st)) ->
                returns (_is_project_dir x) st true -> x = a) -> r = a) /\
    Forall quiet evs.
Proof.
  rewrite !returns_is_project_dir. intros C0 C1 Ha Pa.
  destruct (get_project_root_run st) as [evs [E [_ Hq]]].
  assert (N : find (project_dir (world st)) (near_cwd (world st)) = None).
  { unfold near_cwd; simpl. now rewrite C0, C1. }
  destruct (find (project_dir (world st)) (walk (world st))) as [r|] eqn:F.
  2:{ pose proof (find_none _ _ F a Ha). congruence. }
  destruct (find_split _ _ _ F) as [before [after [W [Pr Hb]]]].
  exists r, evs, before, after.
  assert (R : located_root (world st) = r).
  { unfold located_root. now rewrite N, F. }
  rewrite <- R at 1. split; [exact E|]. split; [exact W|].
  split; [now apply returns_is_project_dir|].
  split; [intros x Hx; now apply returns_is_project_dir, Hb|].
  split.
  - rewrite W in Ha. apply in_app_or in Ha. destruct Ha as [Ha | Ha]; [|exact Ha].
    apply Hb in Ha. congruence.
  - split.
    + intros U. apply U.
      * rewrite W. apply in_or_app. right. now left.
      * now apply returns_is_project_dir.
    + apply Hq. right. congruence.
Qed.

(** The nested package: the marker is at [/repo], farther from the module
    than the [pyproject.toml] of [/repo/pkg]; [/repo] is returned and no
    [pyproject.toml] is looked at. *)
Lemma marker_walk_first_witness :
  returns (_is_project_dir (work_dir nested_package)) (fresh nested_package) false /\
  returns (_is_project_dir (parent (work_dir nested_package))) (fresh nested_package) false /\
  In ["repo"] (walk nested_package) /\
  returns (_is_project_dir ["repo"]) (fresh nested_package) true /\
  exists evs,
    get_project_root (fresh nested_package) = (Ok ["repo"], log evs (fresh nested_package)) /\
    Forall quiet evs.
Proof.
  assert (H0 : returns (_is_project_dir (work_dir nested_package)) (fresh nested_package) false)
    by reflexivity.
  assert (H1 : returns (_is_project_dir (parent (work_dir nested_package)))
                 (fresh nested_package) false) by reflexivity.
  assert (H2 : In ["repo"] (walk nested_package)) by (vm_compute; tauto).
  assert (H3 : returns (_is_project_dir ["repo"]) (fresh nested_package) true)
    by reflexivity.
  repeat (split; [assumption|]).
  destruct (get_project_root_marker_walk_first (fresh nested_package) ["repo"] H0 H1 H2 H3)
    as [r [evs [before [after [E [_ [_ [_ [_ [U Q]]]]]]]]]].
  exists evs. split; [|exact Q].
  rewrite E. f_equal. f_equal. apply U.
  intros x Hx Hp. vm_compute in Hx.
  repeat (destruct Hx as [<- | Hx]; [try reflexivity; discriminate Hp|]).
  destruct Hx.
Defined.

(** The general shape of the last resort: with no marker near the working
    directory, none along the walk and no [pyproject.toml] along it, the
    root returned is three [parent] steps above the module's file. *)
Lemma get_project_root_last_resort (st : State) :
  find (project_dir (world st)) (near_cwd (world st)) = None ->
  find (project_dir (world st)) (walk (world st)) = None ->
  find (pyproject_at (world st)) (walk (world st)) = None ->
  returns get_project_root st
    (parent (parent (parent (module_file (world st))))).
Proof.
  intros H1 H2 H3. apply returns_get_project_root.
  unfold located_root. now rewrite H1, H2, H3.
Qed.

(** C4, on the code: in the bare source tree every strategy but the last
    fails, and the root returned is [/proj/src], three [parent] steps above
    the file [paths.py], while three levels above the directory that
    contains the file is [/proj]. *)
Theorem last_resort_in_bare_checkout :
  Forall (fun c => returns (_is_project_dir c) (fresh bare_checkout) false)
         (near_cwd bare_checkout ++ walk bare_checkout) /\
  Forall (fun c => returns (has_pyproject c) (fresh bare_checkout) false)
         (walk bare_checkout) /\
  returns get_project_root (fresh bare_checkout) ["proj"; "src"] /\
  parent (module_file bare_checkout) = ["proj"; "src"; "simtradelab"; "utils"] /\
  parent (parent (parent (parent (module_file bare_checkout)))) = ["proj"].
Proof.
  repeat split; repeat constructor.
Qed.

(** ** The derived paths *)

(** C5: [get_data_path] and [get_strategies_path] return the root that
    [get_project_root] returns in the same state, joined with [data] and
    with [strategies]. *)
Theorem derived_paths_follow_root (st : State) :
  exists root,
    returns get_project_root st root /\
    returns get_data_path st (root / "data") /\
    returns get_strategies_path st (root / "strategies").
Proof.
  destruct (derived_paths_run st) as [evs [_ [R [D S]]]].
  exists (located_root (world st)). unfold returns.
  rewrite R, D, S. repeat split.
Qed.

(** C6: each recognised lazy constant is computed at the time of the access
    from the state of that time.  [PROJECT_ROOT], [DATA_PATH] and
    [STRATEGIES_PATH] are runs of [get_project_root], [get_data_path] and
    [get_strategies_path]; the two cache paths are the data path of the
    moment joined with their file name.  Every access makes the probes of a
    run of [get_project_root], starting with the working directory. *)
Theorem lazy_constants_recomputed (st : State) :
  exists root evs,
    get_project_root st = (Ok root, log evs st) /\
    get_data_path st = (Ok (root / "data"), log evs st) /\
    hd_error evs = Some ProbeCwd /\
    __getattr__ "PROJECT_ROOT" st = get_project_root st /\
    __getattr__ "DATA_PATH" st = get_data_path st /\
    __getattr__ "STRATEGIES_PATH" st = get_strategies_path st /\
    __getattr__ "ADJ_PRE_CACHE_PATH" st =
      (Ok (root / "data" / "ptrade_adj_pre.parquet"), log evs st) /\
    __getattr__ "ADJ_POST_CACHE_PATH" st =
      (Ok (root / "data" / "ptrade_adj_post.parquet"), log evs st).
Proof.
  destruct (derived_paths_run st) as [evs [Hd [R [D S]]]].
  exists (located_root (world st)), evs.
  split; [exact R|]. split; [exact D|]. split; [exact Hd|].
  unfold __getattr__; simpl.
  rewrite !(bind_ok _ _ _ _ _ D). repeat split.
Qed.

(** Two accesses to the same constant, the process having changed its
    working directory in between: the second sees the new directory. *)
Example lazy_constant_follows_chdir :
  let first := __getattr__ "PROJECT_ROOT" (fresh (three_dirs ["b"])) in
  let moved := mkState (three_dirs ["tmp"]) (probes (snd first)) in
  fst first = Ok ["b"] /\
  fst (__getattr__ "PROJECT_ROOT" moved) = Ok ["a"].
Proof. split; reflexivity. Qed.

(** ** The lazy constants: unknown names *)

Lemma repr_char_verbatim (quote c : ascii) :
  printable c = true ->
  Ascii.eqb c backslash = false ->
  Ascii.eqb c quote = false ->
  repr_char quote c = String c EmptyString.
Proof.
  unfold printable, repr_char, latin1_printable.
  intros P -> ->. cbn [orb].
  set (n := nat_of_ascii c) in *.
  destruct (Nat.eqb_spec n 9) as [->|_]; [discriminate P|].
  destruct (Nat.eqb_spec n 10) as [->|_]; [discriminate P|].
  destruct (Nat.eqb_spec n 13) as [->|_]; [discriminate P|].
  destruct (Nat.ltb_spec n 32) as [L|L].
  { exfalso. apply orb_true_iff in P. destruct P as [P|P];
      apply andb_true_iff in P; destruct P as [P _];
      apply Nat.leb_le in P; lia. }
  destruct (Nat.eqb_spec n 127) as [E|_].
  { exfalso. rewrite E in P. discriminate P. }
  cbn [orb].
  destruct (Nat.ltb_spec n 127) as [L'|L']; [reflexivity|].
  apply orb_true_iff in P. destruct P as [P|P].
  - exfalso. apply andb_true_iff in P. destruct P as [_ P]. discriminate P.
  - now rewrite P.
Qed.

Lemma repr_chars_verbatim (quote : ascii) (s : string) :
  all_chars (fun c => printable c && negb (Ascii.eqb c backslash)
                      && negb (Ascii.eqb c quote)) s = true ->
  repr_chars quote s = s.
Proof.
  induction s as [|c s IH]; simpl; [reflexivity|].
  rewrite !andb_true_iff, !negb_true_iff. intros [[[P B] Q] H].
  rewrite (repr_char_verbatim quote c P B Q), (IH H). reflexivity.
Qed.

Lemma repr_verbatim (name : string) :
  copied_verbatim name = true ->
  repr name =
  String (repr_quote name) (name ++ String (repr_quote name) EmptyString).
Proof.
  intros H. unfold repr. cbv zeta. now rewrite (repr_chars_verbatim _ _ H).
Qed.

Lemma getattr_unrecognized (name : string) (st : State) :
  recognized name = false ->
  __getattr__ name st =
  (Raise (AttributeError ("module 'paths' has no attribute " ++ repr name)), st).
Proof.
  unfold recognized, existsb, __getattr__.
  rewrite !orb_false_iff. intros [-> [-> [-> [-> [-> _]]]]]. reflexivity.
Qed.

(** C7, as the code has it: a recognised name never fails; any other name
    fails with an [AttributeError] whose message ends with [repr name], the
    name in quotes with its backslashes, quotes and non-printable characters
    escaped, and so shows the name itself when nothing in it needs an
    escape. *)
Theorem getattr_unknown_name (name : string) (st : State) :
  (recognized name = true ->
   exists v evs, __getattr__ name st = (Ok v, log evs st)) /\
  (recognized name = false ->
   exists msg,
     __getattr__ name st = (Raise (AttributeError msg), st) /\
     msg = ("module 'paths' has no attribute " ++ repr name)%string /\
     contains (repr name) msg = true /\
     (copied_verbatim name = true -> contains name msg = true)).
Proof.
  split.
  - apply getattr_recognized.
  - intros H. eexists. split; [apply (getattr_unrecognized name st H)|].
    split; [reflexivity|]. split; [apply contains_suffix|].
    intros V. apply contains_spec.
    rewrite (repr_verbatim name V).
    exists ("module 'paths' has no attribute " ++ String (repr_quote name) EmptyString)%string,
           (String (repr_quote name) EmptyString).
    now rewrite append_assoc.
Qed.

(** Counterexample to C7 as worded: for the one-character name made of a
    line feed the message shows a backslash and the letter n, not the line
    feed. *)
Lemma getattr_message_lacks_newline_name :
  recognized newline_name = false /\
  ~ exists msg st',
      __getattr__ newline_name empty_state = (Raise (AttributeError msg), st') /\
      contains newline_name msg = true.
Proof.
  split; [reflexivity|].
  intros [msg [st' [E C]]].
  vm_compute in E. injection E as <- _.
  vm_compute in C. discriminate C.
Qed.

(** ** Below what is not a directory *)

Lemma project_dir_needs_dir (w : World) (p : Path) :
  is_dir_at w p = false -> project_dir w p = false.
Proof.
  intros H. unfold project_dir.
  assert (D : is_dir_at w (p / "data") = false).
  { destruct (is_dir_at w (p / "data")) eqn:E; [|reflexivity].
    apply is_dir_exists in E. now rewrite (exists_below_dir w p "data" H) in E. }
  now rewrite D.
Qed.

(** ** Purity *)

Lemma reads_only_intro {A} (m : M A) :
  (forall st, world (snd (m st)) = world st) ->
  (forall st st', world st' = world st -> fst (m st') = fst (m st)) ->
  reads_only m.
Proof.
  intros Hw Hv st. split; [apply Hw|]. split; [apply Hv|].
  apply Hv, Hw.
Qed.

Lemma reads_only_of_reads {A} (Q : probe -> Prop) (m : M A) (value : World -> A) :
  (forall st, reads Q m st (value (world st))) -> reads_only m.
Proof.
  intros H. apply reads_only_intro.
  - intros st. destruct (H st) as [evs [E _]]. now rewrite E.
  - intros st st' W. destruct (H st) as [e [E _]], (H st') as [e' [E' _]].
    now rewrite E, E', W.
Qed.

Lemma reads_only_raise {A} (e : exn) : reads_only (@raise A e).
Proof. apply reads_only_intro; reflexivity. Qed.

Lemma reads_only_join (m : M Path) (name : string) :
  reads_only m -> reads_only (d <- m ;; ret (d / name)).
Proof.
  intros H. apply reads_only_intro.
  - intros st. destruct (H st) as [W _]. unfold bind.
    destruct (m st) as [[a|e] st1]; exact W.
  - intros st st' E. destruct (H st) as [_ [V _]]. specialize (V st' E).
    unfold bind. destruct (m st) as [[a|e] st1], (m st') as [[a'|e'] st1'];
      simpl in *; congruence.
Qed.

(** C9: every operation only reads: it never changes the file system or
    the working directory, and its outcome is a function of the world
    alone, equal on any two runs over the same world. *)
Theorem operations_read_only :
  (forall path, reads_only (_is_project_dir path)) /\
  reads_only get_project_root /\
  reads_only get_data_path /\
  reads_only get_strategies_path /\
  (forall name, reads_only (__getattr__ name)).
Proof.
  assert (R : reads_only get_project_root)
    by exact (reads_only_of_reads any_probe _ located_root get_project_root_reads).
  assert (D : reads_only get_data_path) by exact (reads_only_join _ _ R).
  assert (S : reads_only get_strategies_path) by exact (reads_only_join _ _ R).
  split; [|split; [exact R | split; [exact D | split; [exact S|]]]].
  - intros path.
    exact (reads_only_of_reads quiet _ (fun w => project_dir w path)
             (is_project_dir_reads path)).
  - intros name. unfold __getattr__.
    destruct (name =? "PROJECT_ROOT")%string; [exact R|].
    destruct (name =? "DATA_PATH")%string; [exact D|].
    destruct (name =? "STRATEGIES_PATH")%string; [exact S|].
    destruct (name =? "ADJ_PRE_CACHE_PATH")%string; [exact (reads_only_join _ _ D)|].
    destruct (name =? "ADJ_POST_CACHE_PATH")%string; [exact (reads_only_join _ _ D)|].
    apply reads_only_raise.
Qed.

(** ** The walk and the module's own file *)

Lemma is_project_dir_reads_any (p : Path) (st : State) :
  reads any_probe (_is_project_dir p) st (project_dir (world st) p).
Proof.
  eapply reads_weaken; [|apply is_project_dir_reads]. intros ev _. exact I.
Qed.

Lemma get_project_root_from_dir_reads (st : State) :
  reads any_probe get_project_root_from_dir st (located_root_from_dir (world st)).
Proof.
  unfold get_project_root_from_dir, located_root_from_dir, near_cwd.
  eapply reads_bind; [exact (reads_probing any_probe ProbeCwd work_dir st I)|].
  intros e1. cbn beta.
  eapply reads_bind;
    [exact (first_passing_reads any_probe _ project_dir _ is_project_dir_reads_any _)|].
  intros e2. rewrite ?world_log.
  destruct (find (project_dir (world st)) _) as [c|]; [apply reads_ret|].
  eapply reads_bind; [exact (reads_probing any_probe ProbeResolve module_file _ I)|].
  intros e3. cbn beta. rewrite ?world_log.
  eapply reads_bind;
    [exact (first_passing_reads any_probe _ project_dir _ is_project_dir_reads_any _)|].
  intros e4. rewrite ?world_log.
  destruct (find (project_dir (world st)) (parents _)) as [p|]; [apply reads_ret|].
  eapply reads_bind;
    [exact (first_passing_reads any_probe _ pyproject_at _ has_pyproject_reads _)|].
  intros e5. rewrite ?world_log.
  destruct (find (pyproject_at (world st)) _) as [p|]; apply reads_ret.
Qed.

Lemma nothing_below_file (w : World) (p : Path) (s : string) :
  is_file_at w p = true -> exists_at w (p / s) = false.
Proof. intros H. apply exists_below_dir. now apply is_file_not_dir. Qed.

Lemma file_not_root (w : World) (p : Path) : is_file_at w p = true -> p <> [].
Proof. intros H ->. discriminate H. Qed.

(** C10: when the module's resolved location is a regular file, that file
    neither carries the project marker nor holds a [pyproject.toml], so each
    walk finds from the file what it finds from the containing directory,
    and [get_project_root] returns what the search started at the containing
    directory returns. *)
Theorem walk_may_skip_module_file (st : State) :
  let file := module_file (world st) in
  is_file_at (world st) file = true ->
  returns (_is_project_dir file) st false /\
  returns (has_pyproject file) st false /\
  parents file = parent file :: parents (parent file) /\
  fst (first_passing _is_project_dir (file :: parents file) st) =
    fst (first_passing _is_project_dir (parents file) st) /\
  fst (first_passing has_pyproject (file :: parents file) st) =
    fst (first_passing has_pyproject (parents file) st) /\
  fst (get_project_root st) = fst (get_project_root_from_dir st).
Proof.
  intros file F.
  assert (P : project_dir (world st) file = false)
    by (apply project_dir_needs_dir; now apply is_file_not_dir).
  assert (T : pyproject_at (world st) file = false)
    by now apply nothing_below_file.
  split; [now apply returns_is_project_dir|].
  split; [unfold returns; simpl; now f_equal|].
  split; [apply parents_unfold; now apply file_not_root with (w := world st)|].
  split; [|split].
  - rewrite (reads_returns _ _ _ _
              (first_passing_reads any_probe _ project_dir (file :: parents file)
                 is_project_dir_reads_any st)).
    rewrite (reads_returns _ _ _ _
              (first_passing_reads any_probe _ project_dir (parents file)
                 is_project_dir_reads_any st)).
    simpl. now rewrite P.
  - rewrite (reads_returns _ _ _ _
              (first_passing_reads any_probe _ pyproject_at (file :: parents file)
                 has_pyproject_reads st)).
    rewrite (reads_returns _ _ _ _
              (first_passing_reads any_probe _ pyproject_at (parents file)
                 has_pyproject_reads st)).
    simpl. now rewrite T.
  - rewrite (reads_returns _ _ _ _ (get_project_root_reads st)).
    rewrite (reads_returns _ _ _ _ (get_project_root_from_dir_reads st)).
    unfold located_root, located_root_from_dir, walk. fold file.
    simpl. now rewrite P, T.
Qed.

(** The nested package again: its module is a regular file. *)
Lemma walk_may_skip_module_file_witness :
  is_file_at nested_package (module_file nested_package) = true /\
  fst (get_project_root (fresh nested_package)) =
  fst (get_project_root_from_dir (fresh nested_package)).
Proof.
  split; [reflexivity|].
  apply (walk_may_skip_module_file (fresh nested_package)). reflexivity.
Defined.

(** * Part III: further properties *)

(** ** The probes of the marker test *)

Lemma is_project_dir_trace (p : Path) (st : State) :
  _is_project_dir p st =
  (Ok (project_dir (world st) p), log (marker_probes (world st) p) st).
Proof.
  unfold _is_project_dir, project_dir, marker_probes, bind, Path_is_dir,
    Path_exists, probing, ret.
  rewrite ?world_log.
  destruct (is_dir_at (world st) (p / "data")); simpl; [|reflexivity].
  rewrite ?world_log, log_log.
  destruct (exists_at (world st) (p / "data" / "manifest.json")); simpl;
    [reflexivity|].
  rewrite ?world_log, log_log. reflexivity.
Qed.

Lemma marker_probes_candidate (w : World) (p : Path) (ev : probe) :
  In ev (marker_probes w p) ->
  ev = ProbeIsDir (p / "data") \/
  ev = ProbeExists (p / "data" / "manifest.json") \/
  ev = ProbeIsDir (p / "strategies").
Proof.
  unfold marker_probes.
  destruct (is_dir_at w (p / "data")), (exists_at w (p / "data" / "manifest.json"));
    simpl; intuition (subst; auto).
Qed.

Lemma is_project_dir_reads_gen (Q : probe -> Prop) (p : Path) :
  Q (ProbeIsDir (p / "data")) ->
  Q (ProbeExists (p / "data" / "manifest.json")) ->
  Q (ProbeIsDir (p / "strategies")) ->
  forall st, reads Q (_is_project_dir p) st (project_dir (world st) p).
Proof.
  intros Q1 Q2 Q3 st. exists (marker_probes (world st) p).
  split; [apply is_project_dir_trace|].
  apply Forall_forall. intros ev H.
  destruct (marker_probes_candidate _ _ _ H) as [-> | [-> | ->]]; assumption.
Qed.

(** X1: the marker test stops as early as it can: it looks at [data] first and
    at nothing else when [data] is not a directory, it looks at [strategies]
    only when [data] is a directory without [manifest.json], and it never
    makes more than three probes. *)
Theorem is_project_dir_short_circuits (path : Path) (st : State) :
  exists b evs,
    _is_project_dir path st = (Ok b, log evs st) /\
    hd_error evs = Some (ProbeIsDir (path / "data")) /\
    length evs <= 3 /\
    (is_dir_at (world st) (path / "data") = false ->
     evs = [ProbeIsDir (path / "data")]) /\
    (In (ProbeIsDir (path / "strategies")) evs <->
     is_dir_at (world st) (path / "data") = true /\
     exists_at (world st) (path / "data" / "manifest.json") = false).
Proof.
  exists (project_dir (world st) path), (marker_probes (world st) path).
  split; [apply is_project_dir_trace|].
  assert (N1 : ProbeIsDir (path / "data") <> ProbeIsDir (path / "strategies")).
  { unfold joinpath. intros H. injection H as H.
    apply app_inv_head in H. discriminate H. }
  unfold marker_probes.
  destruct (is_dir_at (world st) (path / "data")); simpl.
  - destruct (exists_at (world st) (path / "data" / "manifest.json")); simpl.
    + split; [reflexivity|]. split; [lia|]. split; [discriminate|].
      split; [intros H | intros [_ H]; discriminate H].
      destruct H as [H | [H | []]]; [contradiction | discriminate H].
    + split; [reflexivity|]. split; [lia|]. split; [discriminate|].
      split; [intros _; split; reflexivity | intros _; auto].
  - split; [reflexivity|]. split; [lia|]. split; [reflexivity|].
    split; [intros H | intros [H _]; discriminate H].
    destruct H as [H | []]. contradiction.
Qed.

(** ** The shape of the upward walk *)

Lemma above_refl (p : Path) : above p p.
Proof. exists []. now rewrite app_nil_r. Qed.

Lemma above_join (x q : Path) (s : string) :
  above x (q / s) <-> x = q / s \/ above x q.
Proof.
  unfold above, joinpath. split.
  - intros [rest E].
    destruct rest as [|a rest] using rev_ind.
    + left. now rewrite app_nil_r in E.
    + right. rewrite app_assoc in E. apply app_inj_tail in E.
      destruct E as [E _]. now exists rest.
  - intros [-> | [rest ->]].
    + exists []. now rewrite app_nil_r.
    + exists (rest ++ [s]). now rewrite app_assoc.
Qed.

Lemma above_length (x p : Path) : above x p -> length x <= length p.
Proof. intros [rest ->]. rewrite length_app. lia. Qed.

(** The candidates of a walk from [p] are [p] and its ancestors. *)
Lemma walk_above (p x : Path) : In x (p :: parents p) <-> above x p.
Proof.
  induction p as [|s q IH] using rev_ind.
  - simpl. split.
    + intros [<- | []]. apply above_refl.
    + intros [rest E]. left. symmetry in E. apply app_eq_nil in E. symmetry. apply E.
  - change (q ++ [s]) with (q / s). rewrite parents_join, above_join.
    simpl. simpl in IH. rewrite <- IH. intuition.
Qed.

(** A walk goes strictly upward: what comes later is shorter. *)
Lemma walk_descends (p : Path) (before after : list Path) (r : Path) :
  p :: parents p = before ++ r :: after ->
  forall x, In x after -> length x < length r.
Proof.
  revert before. induction p as [|s q IH] using rev_ind; intros before E x Hx.
  - destruct before as [|b before]; simpl in E.
    + injection E as _ <-. destruct Hx.
    + injection E as _ E. destruct before; discriminate E.
  - change (q ++ [s]) with (q / s) in E. rewrite parents_join in E.
    destruct before as [|b before]; simpl in E.
    + injection E as <- <-. apply walk_above, above_length in Hx.
      unfold joinpath. rewrite length_app. simpl. lia.
    + injection E as _ E. exact (IH before E x Hx).
Qed.

Lemma parent_above (x : Path) : above (parent x) x.
Proof.
  exists (skipn (length x - 1) x). unfold parent.
  symmetry. apply firstn_skipn.
Qed.

Lemma above_trans (a b c : Path) : above a b -> above b c -> above a c.
Proof.
  intros [r1 ->] [r2 ->]. exists (r1 ++ r2). now rewrite app_assoc.
Qed.

Lemma parent_firstn (p : Path) (k : nat) :
  k <= length p -> parent (firstn k p) = firstn (k - 1) p.
Proof.
  intros H. unfold parent. rewrite length_firstn, firstn_firstn.
  f_equal. lia.
Qed.

Lemma three_parents (p : Path) :
  parent (parent (parent p)) = firstn (length p - 3) p.
Proof.
  unfold parent at 3.
  rewrite !parent_firstn by lia. f_equal. lia.
Qed.

(** The first candidate of a walk that passes a test is the deepest one. *)
Lemma find_on_walk (f : Path -> bool) (p x : Path) :
  In x (p :: parents p) -> f x = true ->
  exists r,
    find f (p :: parents p) = Some r /\ f r = true /\ above r p /\
    length x <= length r.
Proof.
  intros Hx Fx.
  destruct (find f (p :: parents p)) as [r|] eqn:F.
  2:{ pose proof (find_none _ _ F x Hx). congruence. }
  destruct (find_split _ _ _ F) as [before [after [W [Fr Hb]]]].
  exists r. split; [reflexivity|]. split; [exact Fr|]. split.
  - apply walk_above. rewrite W. apply in_or_app. right. now left.
  - rewrite W in Hx. apply in_app_or in Hx. destruct Hx as [Hx | [<- | Hx]].
    + apply Hb in Hx. congruence.
    + lia.
    + pose proof (walk_descends p before after r W x Hx). lia.
Qed.

Lemma find_all_false {A} (f : A -> bool) (l : list A) :
  (forall x, In x l -> f x = false) -> find f l = None.
Proof.
  induction l as [|a l IH]; intros H; simpl; [reflexivity|].
  rewrite (H a (or_introl eq_refl)). apply IH. intros x Hx. apply H. now right.
Qed.

Lemma returns_has_pyproject (p : Path) (st : State) (b : bool) :
  returns (has_pyproject p) st b <-> pyproject_at (world st) p = b.
Proof.
  pose proof (reads_returns _ _ _ _ (has_pyproject_reads p st)) as H.
  split.
  - intros Hb. exact (returns_inj _ _ _ _ H Hb).
  - intros <-. exact H.
Qed.

Lemma markers_absent (st : State) :
  (forall c, In c (near_cwd (world st) ++ walk (world st)) ->
             returns (_is_project_dir c) st false) ->
  find (project_dir (world st)) (near_cwd (world st)) = None /\
  find (project_dir (world st)) (walk (world st)) = None.
Proof.
  intros H. split; apply find_all_false; intros x Hx;
    apply returns_is_project_dir, H, in_or_app; auto.
Qed.

(** ** More on the strategies of [get_project_root] *)

(** X2: the root returned is never a path of the program's invention: it is the
    working directory, its parent, or the module's location or one of its
    ancestors. *)
Theorem root_is_a_candidate (st : State) :
  exists r,
    returns get_project_root st r /\
    (r = work_dir (world st) \/
     r = parent (work_dir (world st)) \/
     above r (module_file (world st))).
Proof.
  exists (located_root (world st)).
  split; [now apply returns_get_project_root|].
  unfold located_root.
  destruct (find (project_dir (world st)) (near_cwd (world st))) as [c|] eqn:F1.
  { apply find_some in F1. destruct F1 as [[<- | [<- | []]] _]; auto. }
  right; right.
  destruct (find (project_dir (world st)) (walk (world st))) as [p|] eqn:F2.
  { apply find_some in F2. now apply walk_above. }
  destruct (find (pyproject_at (world st)) (walk (world st))) as [p|] eqn:F3.
  { apply find_some in F3. now apply walk_above. }
  unfold fallback_root.
  eapply above_trans; [apply parent_above|].
  eapply above_trans; apply parent_above.
Qed.

(** X3: along the walk the deepest marker wins: with no marker at the working
    directory or its parent, the root returned carries the marker, lies on
    the walk, and is at least as deep as any candidate [x] of the walk that
    carries the marker. *)
Theorem deepest_marker_wins (st : State) (x : Path) :
  returns (_is_project_dir (work_dir (world st))) st false ->
  returns (_is_project_dir (parent (work_dir (world st)))) st false ->
  In x (walk (world st)) ->
  returns (_is_project_dir x) st true ->
  exists r,
    returns get_project_root st r /\
    returns (_is_project_dir r) st true /\
    above r (module_file (world st)) /\
    length x <= length r.
Proof.
  rewrite !returns_is_project_dir. intros C0 C1 Hx Px.
  destruct (find_on_walk (project_dir (world st)) _ x Hx Px)
    as [r [F [Pr [Ar L]]]].
  exists r. rewrite returns_get_project_root, returns_is_project_dir.
  repeat split; try assumption.
  assert (N : find (project_dir (world st)) (near_cwd (world st)) = None).
  { unfold near_cwd; simpl. now rewrite C0, C1. }
  unfold located_root. fold (walk (world st)) in F. now rewrite N, F.
Qed.

(** In the nested package the only marker on the walk is at [/repo]. *)
Lemma deepest_marker_wins_witness :
  exists r,
    returns get_project_root (fresh nested_package) r /\
    returns (_is_project_dir r) (fresh nested_package) true /\
    above r (module_file nested_package) /\
    length ["repo"] <= length r.
Proof.
  apply (deepest_marker_wins (fresh nested_package) ["repo"]).
  - reflexivity.
  - reflexivity.
  - vm_compute. tauto.
  - reflexivity.
Defined.

(** X4: the [pyproject.toml] strategy: with no marker at any candidate, the
    root returned is the deepest candidate of the walk that holds a
    [pyproject.toml], whenever one does. *)
Theorem deepest_pyproject_wins (st : State) (x : Path) :
  (forall c, In c (near_cwd (world st) ++ walk (world st)) ->
             returns (_is_project_dir c) st false) ->
  In x (walk (world st)) ->
  returns (has_pyproject x) st true ->
  exists r,
    returns get_project_root st r /\
    returns (has_pyproject r) st true /\
    above r (module_file (world st)) /\
    length x <= length r.
Proof.
  intros M Hx Px. apply returns_has_pyproject in Px.
  destruct (markers_absent st M) as [F1 F2].
  destruct (find_on_walk (pyproject_at (world st)) _ x Hx Px)
    as [r [F [Pr [Ar L]]]].
  exists r. rewrite returns_get_project_root, returns_has_pyproject.
  repeat split; try assumption.
  unfold located_root. fold (walk (world st)) in F. now rewrite F1, F2, F.
Qed.

(** The unmarked package has a [pyproject.toml] at the root and one at
    [/repo/pkg]; the root is a candidate that holds one. *)
Lemma deepest_pyproject_wins_witness :
  exists r,
    returns get_project_root (fresh unmarked_package) r /\
    returns (has_pyproject r) (fresh unmarked_package) true /\
    above r (module_file unmarked_package) /\
    length (@nil string) <= length r.
Proof.
  apply (deepest_pyproject_wins (fresh unmarked_package) []).
  - intros c Hc. vm_compute in Hc.
    repeat (destruct Hc as [<- | Hc]; [reflexivity|]). destruct Hc.
  - vm_compute. tauto.
  - reflexivity.
Defined.

Example pyproject_root_example :
  returns get_project_root (fresh unmarked_package) ["repo"; "pkg"].
Proof. reflexivity. Qed.

(** X5: whenever some candidate carries the marker, so does the root returned,
    and the data path is then an existing directory. *)
Theorem marked_root_has_data (st : State) (c : Path) :
  In c (near_cwd (world st) ++ walk (world st)) ->
  returns (_is_project_dir c) st true ->
  exists r,
    returns get_project_root st r /\
    returns (_is_project_dir r) st true /\
    returns get_data_path st (r / "data") /\
    is_dir_at (world st) (r / "data") = true.
Proof.
  rewrite returns_is_project_dir. intros Hc Pc.
  destruct (derived_paths_run st) as [evs [_ [R [D _]]]].
  exists (located_root (world st)).
  assert (P : project_dir (world st) (located_root (world st)) = true).
  { unfold located_root.
    destruct (find (project_dir (world st)) (near_cwd (world st))) as [r|] eqn:F1.
    { now apply find_some in F1. }
    destruct (find (project_dir (world st)) (walk (world st))) as [r|] eqn:F2.
    { now apply find_some in F2. }
    apply in_app_or in Hc. destruct Hc as [Hc | Hc].
    - pose proof (find_none _ _ F1 c Hc). congruence.
    - pose proof (find_none _ _ F2 c Hc). congruence. }
  split; [unfold returns; now rewrite R|].
  split; [now apply returns_is_project_dir|].
  split; [unfold returns; now rewrite D|].
  unfold project_dir in P. apply andb_true_iff in P. apply P.
Qed.

(** From the notebooks directory of a project: the parent carries the
    marker. *)
Lemma marked_root_has_data_witness :
  exists r,
    returns get_project_root (fresh notebook_session) r /\
    returns (_is_project_dir r) (fresh notebook_session) true /\
    returns get_data_path (fresh notebook_session) (r / "data") /\
    is_dir_at notebook_session (r / "data") = true.
Proof.
  apply (marked_root_has_data (fresh notebook_session) ["proj"]).
  - vm_compute. tauto.
  - reflexivity.
Defined.

(** X6: the last resort drops the last three components of the module's
    location, and is the root of the file system when the location has no
    more than three. *)
Theorem last_resort_drops_three (st : State) :
  (forall c, In c (near_cwd (world st) ++ walk (world st)) ->
             returns (_is_project_dir c) st false) ->
  (forall c, In c (walk (world st)) -> returns (has_pyproject c) st false) ->
  returns get_project_root st
    (firstn (length (module_file (world st)) - 3) (module_file (world st))) /\
  (length (module_file (world st)) <= 3 -> returns get_project_root st []) /\
  (forall root a b c,
      module_file (world st) = root ++ [a; b; c] ->
      returns get_project_root st root).
Proof.
  intros M T. destruct (markers_absent st M) as [F1 F2].
  assert (F3 : find (pyproject_at (world st)) (walk (world st)) = None).
  { apply find_all_false. intros x Hx. now apply returns_has_pyproject, T. }
  assert (R : returns get_project_root st
                (firstn (length (module_file (world st)) - 3) (module_file (world st)))).
  { apply returns_get_project_root. unfold located_root, fallback_root.
    rewrite F1, F2, F3. apply three_parents. }
  split; [exact R|]. split.
  - intros L. replace (length (module_file (world st)) - 3) with 0 in R by lia.
    exact R.
  - intros root a b c E. rewrite E in R.
    rewrite length_app in R. simpl in R.
    replace (length root + 3 - 3) with (length root + 0) in R by lia.
    now rewrite firstn_app_2, app_nil_r in R.
Qed.

(** The bare checkout has no marker and no [pyproject.toml]. *)
Lemma last_resort_drops_three_witness :
  returns get_project_root (fresh bare_checkout)
    (firstn (length (module_file bare_checkout) - 3) (module_file bare_checkout)).
Proof.
  apply (last_resort_drops_three (fresh bare_checkout)).
  - intros c Hc. vm_compute in Hc.
    repeat (destruct Hc as [<- | Hc]; [reflexivity|]). destruct Hc.
  - intros c Hc. vm_compute in Hc.
    repeat (destruct Hc as [<- | Hc]; [reflexivity|]). destruct Hc.
Defined.

(** ** Where the program looks *)

Lemma first_passing_reads_in (Q : probe -> Prop) (test : Path -> M bool)
      (holds : World -> Path -> bool) (l : list Path) :
  (forall c, In c l -> forall st, reads Q (test c) st (holds (world st) c)) ->
  forall st, reads Q (first_passing test l) st (find (holds (world st)) l).
Proof.
  induction l as [|c l IH]; intros H st; simpl.
  - apply reads_ret.
  - eapply reads_bind; [apply H; now left|].
    intros evs. destruct (holds (world st) c); [apply reads_ret|].
    apply (IH (fun x Hx => H x (or_intror Hx)) (log evs st)).
Qed.

Lemma candidate_probes_allowed (w : World) (c : Path) (ev : probe) :
  In c (near_cwd w ++ walk w) -> In ev (candidate_probes c) ->
  In ev (allowed_probes w).
Proof.
  intros Hc Hev. unfold allowed_probes. right. right.
  apply in_flat_map. exists c. now split.
Qed.

Lemma marker_test_allowed (w : World) (c : Path) :
  In c (near_cwd w ++ walk w) ->
  forall st,
    reads (fun ev => In ev (allowed_probes w)) (_is_project_dir c) st
          (project_dir (world st) c).
Proof.
  intros Hc. apply is_project_dir_reads_gen;
    apply (candidate_probes_allowed w c _ Hc); simpl; auto.
Qed.

Lemma pyproject_test_allowed (w : World) (c : Path) :
  In c (near_cwd w ++ walk w) ->
  forall st,
    reads (fun ev => In ev (allowed_probes w)) (has_pyproject c) st
          (pyproject_at (world st) c).
Proof.
  intros Hc st.
  apply (reads_probing _ _ (fun w' => exists_at w' (c / "pyproject.toml")) st).
  apply (candidate_probes_allowed w c _ Hc). simpl. auto.
Qed.

(** X7: the program looks at nothing but its candidates: besides asking for the
    working directory and resolving the module's location, a run of
    [get_project_root] only examines [data], [data/manifest.json],
    [strategies] and [pyproject.toml] directly below the working directory,
    its parent, the module's location or an ancestor of that location. *)
Theorem probes_stay_at_candidates (st : State) :
  exists r evs,
    get_project_root st = (Ok r, log evs st) /\
    incl evs (allowed_probes (world st)) /\
    (forall ev, In ev evs ->
       ev = ProbeCwd \/ ev = ProbeResolve \/
       exists c,
         (c = work_dir (world st) \/ c = parent (work_dir (world st)) \/
          above c (module_file (world st))) /\
         In ev (candidate_probes c)).
Proof.
  set (w := world st).
  assert (R : reads (fun ev => In ev (allowed_probes w)) get_project_root st
                    (located_root w)).
  { unfold get_project_root, located_root.
    eapply reads_bind.
    { apply (reads_probing _ ProbeCwd work_dir st). now left. }
    intros e1. cbn beta.
    eapply reads_bind.
    { apply (first_passing_reads_in _ _ project_dir (near_cwd w)).
      intros c Hc. apply marker_test_allowed. apply in_or_app. now left. }
    intros e2. rewrite ?world_log. fold w.
    destruct (find (project_dir w) (near_cwd w)) as [c|]; [apply reads_ret|].
    eapply reads_bind.
    { apply (reads_probing _ ProbeResolve module_file). right. now left. }
    intros e3. cbn beta. rewrite ?world_log. fold w.
    eapply reads_bind.
    { apply (first_passing_reads_in _ _ project_dir (walk w)).
      intros c Hc. apply marker_test_allowed. apply in_or_app. now right. }
    intros e4. rewrite ?world_log. fold w.
    destruct (find (project_dir w) (walk w)) as [p|]; [apply reads_ret|].
    eapply reads_bind.
    { apply (first_passing_reads_in _ _ pyproject_at (walk w)).
      intros c Hc. apply pyproject_test_allowed. apply in_or_app. now right. }
    intros e5. rewrite ?world_log. fold w.
    destruct (find (pyproject_at w) (walk w)) as [p|]; apply reads_ret. }
  destruct R as [evs [E F]]. exists (located_root w), evs.
  split; [exact E|].
  assert (I : incl evs (allowed_probes w)).
  { intros ev Hev. exact (proj1 (Forall_forall _ _) F ev Hev). }
  split; [exact I|].
  intros ev Hev. apply I in Hev.
  destruct Hev as [<- | [<- | Hev]]; auto.
  right; right. apply in_flat_map in Hev. destruct Hev as [c [Hc Hev]].
  exists c. split; [|exact Hev].
  apply in_app_or in Hc. destruct Hc as [[<- | [<- | []]] | Hc]; auto.
  right; right. now apply walk_above.
Qed.

(** X8: when the working directory or its parent carries the marker, the
    module's location plays no part: it is not resolved, and the root
    returned is the same wherever the module lies. *)
Theorem cwd_strategy_ignores_module (st : State) (c : Path) :
  In c (near_cwd (world st)) ->
  returns (_is_project_dir c) st true ->
  exists r evs,
    get_project_root st = (Ok r, log evs st) /\
    In r (near_cwd (world st)) /\
    returns (_is_project_dir r) st true /\
    ~ In ProbeResolve evs /\
    (forall file' past,
        returns get_project_root
          (mkState (mkWorld (fs (world st)) (work_dir (world st)) file') past) r).
Proof.
  rewrite returns_is_project_dir. intros Hc Pc.
  destruct (find (project_dir (world st)) (near_cwd (world st))) as [r|] eqn:F.
  2:{ pose proof (find_none _ _ F c Hc). congruence. }
  pose proof (find_some _ _ F) as [Hr Pr].
  set (Q := fun ev : probe => ev <> ProbeResolve).
  assert (E1 : Path_cwd st = (Ok (work_dir (world st)), log [ProbeCwd] st))
    by reflexivity.
  destruct (first_passing_reads_in Q _is_project_dir project_dir
              (near_cwd (world st))
              (fun x _ => is_project_dir_reads_gen Q x
                            ltac:(discriminate) ltac:(discriminate) ltac:(discriminate))
              (log [ProbeCwd] st)) as [e2 [E2 Q2]].
  exists r, ([ProbeCwd] ++ e2). split.
  { unfold get_project_root. rewrite (bind_ok _ _ _ _ _ E1).
    unfold near_cwd in E2. rewrite (bind_ok _ _ _ _ _ E2), log_log, world_log.
    unfold near_cwd in F. now rewrite F. }
  split; [exact Hr|]. split; [now apply returns_is_project_dir|]. split.
  - intros [H | H]; [discriminate H|].
    exact (proj1 (Forall_forall _ _) Q2 _ H eq_refl).
  - intros file' past. apply returns_get_project_root. cbn [world].
    set (w' := mkWorld (fs (world st)) (work_dir (world st)) file').
    assert (F' : find (project_dir w') (near_cwd w') = Some r) by exact F.
    unfold located_root. now rewrite F'.
Qed.

(** The notebook session, where the parent carries the marker. *)
Lemma cwd_strategy_ignores_module_witness :
  exists r evs,
    get_project_root (fresh notebook_session) = (Ok r, log evs (fresh notebook_session)) /\
    In r (near_cwd notebook_session) /\
    returns (_is_project_dir r) (fresh notebook_session) true /\
    ~ In ProbeResolve evs /\
    (forall file' past,
        returns get_project_root
          (mkState (mkWorld (fs notebook_session) (work_dir notebook_session) file') past) r).
Proof.
  apply (cwd_strategy_ignores_module (fresh notebook_session) ["proj"]).
  - vm_compute. tauto.
  - reflexivity.
Defined.

(** X9: once the working directory and its parent are ruled out, the working
    directory has no further influence: two runs over the same file system
    and module location return the same root, whatever the two working
    directories. *)
Theorem unmarked_cwd_is_ignored (st st' : State) :
  fs (world st') = fs (world st) ->
  module_file (world st') = module_file (world st) ->
  (forall c, In c (near_cwd (world st)) -> returns (_is_project_dir c) st false) ->
  (forall c, In c (near_cwd (world st')) -> returns (_is_project_dir c) st' false) ->
  fst (get_project_root st) = fst (get_project_root st').
Proof.
  intros Ef Em N N'.
  rewrite (reads_returns _ _ _ _ (get_project_root_reads st)).
  rewrite (reads_returns _ _ _ _ (get_project_root_reads st')).
  assert (F : find (project_dir (world st)) (near_cwd (world st)) = None).
  { apply find_all_false. intros x Hx. now apply returns_is_project_dir, N. }
  assert (F' : find (project_dir (world st')) (near_cwd (world st')) = None).
  { apply find_all_false. intros x Hx. now apply returns_is_project_dir, N'. }
  f_equal. unfold located_root. rewrite F, F'.
  destruct (world st) as [f d m], (world st') as [f' d' m'].
  simpl in Ef, Em. subst f' m'. reflexivity.
Qed.

(** A marker two levels above the working directory is not found through
    it: from [/b/x/y] the root is the one found from [/opt]. *)
Lemma unmarked_cwd_is_ignored_witness :
  fst (get_project_root (fresh (installed_apart ["opt"]))) =
  fst (get_project_root (fresh (installed_apart ["b"; "x"; "y"]))).
Proof.
  apply unmarked_cwd_is_ignored.
  - reflexivity.
  - reflexivity.
  - intros c Hc. vm_compute in Hc.
    repeat (destruct Hc as [<- | Hc]; [reflexivity|]). destruct Hc.
  - intros c Hc. vm_compute in Hc.
    repeat (destruct Hc as [<- | Hc]; [reflexivity|]). destruct Hc.
Defined.

Example grandparent_marker_example :
  returns (_is_project_dir ["b"]) (fresh (installed_apart ["b"; "x"; "y"])) true /\
  returns get_project_root (fresh (installed_apart ["b"; "x"; "y"])) ["opt"; "lib"] /\
  returns get_project_root (fresh (installed_apart ["b"; "x"])) ["b"].
Proof. repeat split. Qed.

(** ** The derived paths, upward *)

(** X10: going up from the derived paths: the parent of the data path and of the
    strategies path is the project root, the parent of either cache path is
    the data path, and the data and strategies paths differ. *)
Theorem derived_paths_parents (st : State) :
  exists root data strategies pre post,
    returns get_project_root st root /\
    returns get_data_path st data /\
    returns get_strategies_path st strategies /\
    returns (__getattr__ "ADJ_PRE_CACHE_PATH") st pre /\
    returns (__getattr__ "ADJ_POST_CACHE_PATH") st post /\
    parent data = root /\ parent strategies = root /\
    parent pre = data /\ parent post = data /\
    parent (parent pre) = root /\
    data <> strategies /\ pre <> post.
Proof.
  destruct (derived_paths_run st) as [evs [_ [R [D S]]]].
  exists (located_root (world st)), (located_root (world st) / "data"),
    (located_root (world st) / "strategies"),
    (located_root (world st) / "data" / "ptrade_adj_pre.parquet"),
    (located_root (world st) / "data" / "ptrade_adj_post.parquet").
  unfold returns, __getattr__; simpl.
  rewrite !(bind_ok _ _ _ _ _ D), R, D, S. rewrite !parent_join.
  repeat split; unfold joinpath; intros H; apply app_inv_head in H;
    discriminate H.
Qed.

(** ** Unknown names and their messages *)

Lemma decode_repr_char (quote c : ascii) (rest : string) :
  quote = squote \/ quote = dquote ->
  decode_char quote (repr_char quote c ++ rest) = Some (c, rest).
Proof.
  intros [-> | ->]; destruct c as [[] [] [] [] [] [] [] []]; reflexivity.
Qed.

Lemma decode_closing_quote (quote : ascii) (rest : string) :
  quote = squote \/ quote = dquote ->
  decode_char quote (String quote rest) = None.
Proof. intros [-> | ->]; reflexivity. Qed.

Lemma repr_chars_inj (quote : ascii) :
  quote = squote \/ quote = dquote ->
  forall a b t1 t2,
    (repr_chars quote a ++ String quote t1 =
     repr_chars quote b ++ String quote t2)%string ->
    a = b.
Proof.
  intros Hq. induction a as [|c a IH]; intros [|d b] t1 t2 H; simpl in H.
  - reflexivity.
  - exfalso. rewrite append_assoc in H.
    apply (f_equal (decode_char quote)) in H.
    rewrite decode_closing_quote, decode_repr_char in H by exact Hq.
    discriminate H.
  - exfalso. rewrite append_assoc in H.
    apply (f_equal (decode_char quote)) in H.
    rewrite decode_closing_quote, decode_repr_char in H by exact Hq.
    discriminate H.
  - rewrite !append_assoc in H.
    apply (f_equal (decode_char quote)) in H.
    rewrite !decode_repr_char in H by exact Hq.
    injection H as -> H. f_equal. exact (IH b t1 t2 H).
Qed.

Lemma repr_quote_cases (s : string) :
  repr_quote s = squote \/ repr_quote s = dquote.
Proof.
  unfold repr_quote.
  destruct (has_char squote s && negb (has_char dquote s)); auto.
Qed.

(** [repr] tells names apart. *)
Lemma repr_inj (a b : string) : repr a = repr b -> a = b.
Proof.
  unfold repr. cbv zeta. intros H. injection H as Hq H.
  rewrite <- Hq in H.
  exact (repr_chars_inj _ (repr_quote_cases a) a b _ _ H).
Qed.

Lemma append_inv_head (p x y : string) : (p ++ x = p ++ y)%string -> x = y.
Proof.
  induction p as [|c p IH]; simpl; intros H; [exact H|].
  injection H as H. exact (IH H).
Qed.

(** X11: the error names the attribute without ambiguity: two different names
    outside the recognised five never fail with the same message, in
    whatever states they are asked for. *)
Theorem unknown_names_get_distinct_errors (a b : string) (st st' : State) :
  recognized a = false ->
  recognized b = false ->
  a <> b ->
  fst (__getattr__ a st) <> fst (__getattr__ b st').
Proof.
  intros Ra Rb N.
  rewrite (getattr_unrecognized a st Ra), (getattr_unrecognized b st' Rb).
  cbn [fst]. intros H.
  assert (E : ("module 'paths' has no attribute " ++ repr a)%string =
              ("module 'paths' has no attribute " ++ repr b)%string)
    by congruence.
  apply append_inv_head, repr_inj in E. contradiction.
Qed.

(** A name and the same name with a trailing line feed. *)
Lemma unknown_names_get_distinct_errors_witness :
  fst (__getattr__ "ROOT" empty_state) <>
  fst (__getattr__ (String "R" (String "O" (String "O" (String "T" newline_name))))
         empty_state).
Proof.
  apply unknown_names_get_distinct_errors.
  - reflexivity.
  - reflexivity.
  - discriminate.
Defined.

(** ** The cost of a run *)

Lemma marker_probes_length (w : World) (p : Path) : length (marker_probes w p) <= 3.
Proof.
  unfold marker_probes.
  destruct (is_dir_at w (p / "data")), (exists_at w (p / "data" / "manifest.json"));
    simpl; lia.
Qed.

Lemma first_passing_cost (k : nat) (test : Path -> M bool) (l : list Path) :
  (forall c st, exists b evs, test c st = (Ok b, log evs st) /\ length evs <= k) ->
  forall st, exists r evs,
    first_passing test l st = (Ok r, log evs st) /\ length evs <= k * length l.
Proof.
  intros H. induction l as [|c l IH]; intros st; simpl.
  - exists None, []. rewrite log_nil. split; [reflexivity | simpl; lia].
  - destruct (H c st) as [b [e1 [E1 L1]]].
    rewrite (bind_ok _ _ _ _ _ E1). destruct b.
    + exists (Some c), e1. split; [reflexivity | lia].
    + destruct (IH (log e1 st)) as [r [e2 [E2 L2]]].
      exists r, (e1 ++ e2). rewrite E2, log_log. split; [reflexivity|].
      rewrite length_app. lia.
Qed.

Lemma parents_length (p : Path) : length (parents p) = length p.
Proof. unfold parents. now rewrite length_map, length_seq. Qed.

(** X12: a run of [get_project_root] makes a number of probes that is linear in
    the depth of the module's location: at most four per candidate of the
    walk, and eight for the working directory, its parent and the two
    questions to the system. *)
Theorem probes_are_bounded (st : State) :
  exists r evs,
    get_project_root st = (Ok r, log evs st) /\
    length evs <= 4 * length (module_file (world st)) + 12.
Proof.
  assert (CM : forall c s, exists b evs,
             _is_project_dir c s = (Ok b, log evs s) /\ length evs <= 3).
  { intros c s. exists (project_dir (world s) c), (marker_probes (world s) c).
    split; [apply is_project_dir_trace | apply marker_probes_length]. }
  assert (CP : forall c s, exists b evs,
             has_pyproject c s = (Ok b, log evs s) /\ length evs <= 1).
  { intros c s. eexists. exists [ProbeExists (c / "pyproject.toml")].
    split; [reflexivity | simpl; lia]. }
  unfold get_project_root.
  assert (E1 : Path_cwd st = (Ok (work_dir (world st)), log [ProbeCwd] st))
    by reflexivity.
  rewrite (bind_ok _ _ _ _ _ E1).
  destruct (first_passing_cost 3 _is_project_dir
              [work_dir (world st); parent (work_dir (world st))] CM
              (log [ProbeCwd] st)) as [r1 [e2 [E2 L2]]].
  rewrite (bind_ok _ _ _ _ _ E2), log_log. simpl in L2.
  destruct r1 as [c|].
  { exists c, ([ProbeCwd] ++ e2). split; [reflexivity|].
    rewrite length_app. simpl. lia. }
  assert (E3 : Path_resolve_file (log ([ProbeCwd] ++ e2) st) =
               (Ok (module_file (world st)),
                log [ProbeResolve] (log ([ProbeCwd] ++ e2) st)))
    by reflexivity.
  rewrite (bind_ok _ _ _ _ _ E3), log_log.
  set (file := module_file (world st)).
  destruct (first_passing_cost 3 _is_project_dir (file :: parents file) CM
              (log (([ProbeCwd] ++ e2) ++ [ProbeResolve]) st)) as [r2 [e4 [E4 L4]]].
  rewrite (bind_ok _ _ _ _ _ E4), log_log.
  simpl length in L4. rewrite parents_length in L4.
  destruct r2 as [p|].
  { exists p, ((([ProbeCwd] ++ e2) ++ [ProbeResolve]) ++ e4).
    split; [reflexivity|]. rewrite !length_app. simpl. lia. }
  destruct (first_passing_cost 1 has_pyproject (file :: parents file) CP
              (log ((([ProbeCwd] ++ e2) ++ [ProbeResolve]) ++ e4) st))
    as [r3 [e5 [E5 L5]]].
  rewrite (bind_ok _ _ _ _ _ E5), log_log.
  simpl length in L5. rewrite parents_length in L5.
  exists (match r3 with Some p => p | None => parent (parent (parent file)) end),
    (((([ProbeCwd] ++ e2) ++ [ProbeResolve]) ++ e4) ++ e5).
  split; [destruct r3; reflexivity|].
  rewrite !length_app. simpl. lia.
Qed.

(** ** Asking again from the root *)

(** X13: a marked directory is a fixed point of the search: a run whose working
    directory is that directory returns it, and so does a run whose working
    directory is a direct child of it that does not carry the marker
    itself, wherever the module lies and whatever was probed before. *)
Theorem marked_root_is_stable (st : State) (r : Path) :
  returns (_is_project_dir r) st true ->
  forall file' past,
    returns get_project_root (mkState (mkWorld (fs (world st)) r file') past) r /\
    (forall s,
        returns (_is_project_dir (r / s)) st false ->
        returns get_project_root
          (mkState (mkWorld (fs (world st)) (r / s) file') past) r).
Proof.
  rewrite returns_is_project_dir. intros P file' past. split.
  - apply returns_get_project_root. cbn [world].
    set (w' := mkWorld (fs (world st)) r file').
    assert (P' : project_dir w' r = true) by exact P.
    unfold located_root, near_cwd. cbn [work_dir w' find]. now rewrite P'.
  - intros s. rewrite returns_is_project_dir. intros N.
    apply returns_get_project_root. cbn [world].
    set (w' := mkWorld (fs (world st)) (r / s) file').
    assert (P' : project_dir w' r = true) by exact P.
    assert (N' : project_dir w' (r / s) = false) by exact N.
    unfold located_root, near_cwd. cbn [work_dir w' find].
    rewrite N', parent_join. now rewrite P'.
Qed.

(** The project of the notebook session, asked from its root and from its
    [notebooks] directory. *)
Lemma marked_root_is_stable_witness :
  returns get_project_root
    (mkState (mkWorld (fs notebook_session) ["proj"] []) []) ["proj"] /\
  (forall s,
      returns (_is_project_dir (["proj"] / s)) (fresh notebook_session) false ->
      returns get_project_root
        (mkState (mkWorld (fs notebook_session) (["proj"] / s) []) []) ["proj"]).
Proof.
  apply (marked_root_is_stable (fresh notebook_session) ["proj"]).
  reflexivity.
Defined.


(** * Part IV: the system may refuse *)

(** ** Limits *)






(** ** Agreement with the reading in which every probe is answered *)











(** ** Missing paths and refusals *)





